(** * COM-Server: the built-in REST endpoints ([com_server/api_builtins.py])

    A shallow embedding of the adapter that turns HTTP requests into calls on
    the serial [Connection] object, and of the registry that attaches the
    resources to a [RestApiHandler].

    The connection is a collaborator: a handler is a program whose only
    effects are calls to [conn.send] and [conn.receive_str], an HTTP abort, or
    an uncaught Python exception.  Programs are interpreted against any
    implementation of the collaborator, and the interpretation records every
    call that was made together with its result.  The properties are about
    calls that return: an exception of the collaborator is not caught by this
    layer and is outside this development. *)

From Stdlib Require Import String Ascii List ZArith Bool Floats DecimalString.
Import ListNotations.

#[local] Set Warnings "-register-all".

Open Scope string_scope.
Open Scope Z_scope.

(** ** Python values *)

(** The objects that travel between the request parser, the handlers and the
    connection: what a decoded JSON body can hold (null, booleans, integers,
    floats, strings, arrays, objects), a form or query-string value being a
    [PyStr].  A [string] stands for a Python str. *)
Inductive pyvalue : Type :=
| PyNone
| PyBool (b : bool)
| PyInt (n : Z)
| PyFloat (x : float)
| PyStr (s : string)
| PyList (items : list pyvalue)
| PyDict (items : list (string * pyvalue)).

(** What the conversions take from the interpreter and this development does
    not compute.  [int_of_str s] is [int(s)] for a str [s], [None] when it
    raises [ValueError]: which numerals are read depends on the interpreter
    (its Unicode tables, its limit on the number of digits).  [str_of v] is
    [str(v)] for a value [v] that is not a str. *)
Class Python : Type := {
  int_of_str : string -> option Z;
  str_of : pyvalue -> string
}.

(** JSON bodies of the responses. *)
Inductive json : Type :=
| JNull
| JNumber (x : float)
| JString (s : string)
| JObject (fields : list (string * json)).

Record response : Type := { status : Z; body : json }.

(** What a receive query gives back: [(timestamp, string)] or [None]. *)
Definition receive_record : Type := (float * string)%type.

(** ** Calls on the collaborator *)

(** The keyword arguments of one [conn.receive_str(...)] call; [None] is a
    keyword that the call does not pass. *)
Record receive_kwargs : Type := {
  kw_num_before : option pyvalue;
  kw_read_until : option pyvalue;
  kw_strip : option pyvalue
}.

Definition no_kwargs : receive_kwargs :=
  {| kw_num_before := None; kw_read_until := None; kw_strip := None |}.

(** The arguments a [receive_str] call is bound to: the spec's ReceiveQuery
    (offset into the receive history, terminator, strip flag). *)
Record receive_query : Type := {
  num_before : pyvalue;
  read_until : pyvalue;
  strip : pyvalue
}.

(** Modelled from the spec: the keyword defaults in the signature of
    [Connection.receive_str] (class [Connection] is imported from the package
    and is not part of this file).  A call without arguments "asks the
    connection for the most recent received record, stripped": offset 0 is
    the most recent record, the terminator defaults to none (the whole
    buffered string), and stripping is on. *)
Definition receive_str_defaults : receive_query :=
  {| num_before := PyInt 0; read_until := PyNone; strip := PyBool true |}.

Definition or_default (d : pyvalue) (o : option pyvalue) : pyvalue :=
  match o with Some v => v | None => d end.

(** Python's binding of the keywords of a call to the parameters. *)
Definition bind_receive_str (kw : receive_kwargs) : receive_query :=
  {| num_before := or_default (num_before receive_str_defaults) (kw_num_before kw);
     read_until := or_default (read_until receive_str_defaults) (kw_read_until kw);
     strip := or_default (strip receive_str_defaults) (kw_strip kw) |}.

(** The interface of the collaborator that this layer consumes:
    [send] takes the fragments, the ending and the separator and answers a
    boolean; [receive_str] takes the offset, the terminator and the strip
    flag and answers a [(timestamp, string)] pair or [None].  Both act on
    the state of the serial connection.  An implementation describes calls
    that return. *)
Class Connection (St : Type) : Type := {
  conn_send : list pyvalue -> pyvalue -> pyvalue -> St -> bool * St;
  conn_receive_str : receive_query -> St -> option receive_record * St
}.

(** One entry of the log of calls: the arguments as passed and the result. *)
Inductive call : Type :=
| SendCall (args : list pyvalue) (ending concatenate : pyvalue) (result : bool)
| ReceiveStrCall (kw : receive_kwargs) (result : option receive_record).

(** ** Handler programs *)

Inductive pyexception : Type :=
| TypeError (msg : string)
| KeyError (key : string).

(** A handler body: it returns, aborts with an HTTP status
    ([flask_restful.abort] or a raised [HTTPException]), raises, or calls the
    connection and goes on with the result. *)
Inductive prog (A : Type) : Type :=
| Ret (a : A)
| Abort (code : Z) (data : json)
| Raise (exc : pyexception)
| CallSend (args : list pyvalue) (ending concatenate : pyvalue)
           (k : bool -> prog A)
| CallReceiveStr (kw : receive_kwargs) (k : option receive_record -> prog A).

Arguments Ret {A} a.
Arguments Abort {A} code data.
Arguments Raise {A} exc.
Arguments CallSend {A} args ending concatenate k.
Arguments CallReceiveStr {A} kw k.

Fixpoint bind {A B : Type} (p : prog A) (f : A -> prog B) : prog B :=
  match p with
  | Ret a => f a
  | Abort code data => Abort code data
  | Raise exc => Raise exc
  | CallSend args e c k => CallSend args e c (fun r => bind (k r) f)
  | CallReceiveStr kw k => CallReceiveStr kw (fun r => bind (k r) f)
  end.

Declare Scope prog_scope.
Delimit Scope prog_scope with prog.
Notation "x <- p ;; q" := (bind p (fun x => q))
  (at level 100, p at next level, right associativity) : prog_scope.
Open Scope prog_scope.

Definition send_call (args : list pyvalue) (ending concatenate : pyvalue)
  : prog bool :=
  CallSend args ending concatenate (fun r => Ret r).

Definition receive_str_call (kw : receive_kwargs)
  : prog (option receive_record) :=
  CallReceiveStr kw (fun r => Ret r).

(** How a handler ends. *)
Inductive outcome (A : Type) : Type :=
| Returned (a : A)
| Aborted (code : Z) (data : json)
| Raised (exc : pyexception).

Arguments Returned {A} a.
Arguments Aborted {A} code data.
Arguments Raised {A} exc.

(** Running a handler against a connection in state [st]: the outcome, the
    state of the connection afterwards, and the calls made, in order.  A
    [receive_str] call binds the keywords it leaves out to the defaults of
    the signature. *)
Fixpoint run {St : Type} `{Connection St} {A : Type} (p : prog A) (st : St)
  : outcome A * St * list call :=
  match p with
  | Ret a => (Returned a, st, [])
  | Abort code data => (Aborted code data, st, [])
  | Raise exc => (Raised exc, st, [])
  | CallSend args e c k =>
      let '(r, st1) := conn_send args e c st in
      let '(o, st2, log) := run (k r) st1 in
      (o, st2, SendCall args e c r :: log)
  | CallReceiveStr kw k =>
      let '(r, st1) := conn_receive_str (bind_receive_str kw) st in
      let '(o, st2, log) := run (k r) st1 in
      (o, st2, ReceiveStrCall kw r :: log)
  end.

Definition message (m : json) : json := JObject [("message", m)].

(** The response flask_restful builds from the way the handler ended: a
    returned dictionary is a 200, an abort carries its own status and data,
    anything else is a 500. *)
Definition http_response (o : outcome json) : response :=
  match o with
  | Returned b => {| status := 200; body := b |}
  | Aborted code data => {| status := code; body := data |}
  | Raised _ =>
      {| status := 500; body := message (JString "Internal Server Error") |}
  end.

(** ** Python conversions used as argument types *)

(** [bool(v)]: the truth value of an object. *)
Definition truthy (v : pyvalue) : bool :=
  match v with
  | PyNone => false
  | PyBool b => b
  | PyInt n => negb (n =? 0)
  | PyFloat x => negb (PrimFloat.eqb x 0)
  | PyStr s => negb (String.eqb s "")
  | PyList items => match items with [] => false | _ :: _ => true end
  | PyDict items => match items with [] => false | _ :: _ => true end
  end.

(** [int(x)] for a float: the integral part, towards zero; [None] for an
    infinity ([OverflowError]) and for a NaN ([ValueError]). *)
Definition float_to_int (x : float) : option Z :=
  match Prim2SF x with
  | S754_finite s m e =>
      let magnitude := Z.shiftl (Z.pos m) e in
      Some (if s then - magnitude else magnitude)
  | S754_zero _ => Some 0
  | S754_infinity _ | S754_nan => None
  end.

(** [type=int]: [int(v)]; [None] when it raises ([ValueError] for a str that
    is no numeral, [TypeError] for [None] and for containers). *)
Definition py_int {Py : Python} (v : pyvalue) : option pyvalue :=
  match v with
  | PyStr s => option_map PyInt (int_of_str s)
  | PyInt n => Some (PyInt n)
  | PyBool b => Some (PyInt (if b then 1 else 0))
  | PyFloat x => option_map PyInt (float_to_int x)
  | PyNone | PyList _ | PyDict _ => None
  end.

(** [type=bool]: [bool(v)].  Never raises. *)
Definition py_bool (v : pyvalue) : option pyvalue :=
  Some (PyBool (truthy v)).

(** The str that [str(v)] gives: a str is itself. *)
Definition text_of {Py : Python} (v : pyvalue) : pyvalue :=
  match v with
  | PyStr s => PyStr s
  | _ => PyStr (str_of v)
  end.

(** reqparse's default type, [text_type]: [str(v)].  Never raises. *)
Definition text_type {Py : Python} (v : pyvalue) : option pyvalue :=
  Some (text_of v).

(** ** The request parser ([flask_restful.reqparse]) *)

(** The request as the parser reads it: the items of the multi-dict that
    merges the decoded JSON body with the query-string and form values, in
    order; a key may occur several times.  A query-string or form value is a
    [PyStr]; a value of the JSON body is whatever was decoded. *)
Definition multidict : Type := list (string * pyvalue).

Definition getlist (name : string) (src : multidict) : list pyvalue :=
  map snd (filter (fun item => String.eqb (fst item) name) src).

Inductive action : Type := store | append.

(** One [add_argument]: [arg_type] is the conversion given as [type=]
    ([None] when it raises); the keywords a declaration leaves out are
    [type=text_type], [required=False], [default=None], [action='store']. *)
Record Argument : Type := {
  arg_name : string;
  arg_type : pyvalue -> option pyvalue;
  arg_required : bool;
  arg_default : pyvalue;
  arg_action : action;
  arg_help : string
}.

Definition namespace : Type := list (string * pyvalue).

Definition abort {A : Type} (http_status_code : Z) (msg : json) : prog A :=
  Abort http_status_code (message msg).

(** [Argument.handle_validation_error]: errors are not bundled, so the parse
    stops with a 400 whose message maps the argument to its help text. *)
Definition handle_validation_error {A : Type} (a : Argument) : prog A :=
  abort 400 (JObject [(arg_name a, JString (arg_help a))]).

(** [Argument.convert]: [None] is not cast (arguments are nullable unless
    declared otherwise); any other value goes through the type. *)
Definition convert (type : pyvalue -> option pyvalue) (value : pyvalue)
  : option pyvalue :=
  match value with
  | PyNone => Some PyNone
  | _ => type value
  end.

(** Converts the supplied values in order; [None] as soon as one raises. *)
Fixpoint convert_all (type : pyvalue -> option pyvalue) (values : list pyvalue)
  : option (list pyvalue) :=
  match values with
  | [] => Some []
  | v :: rest =>
      match convert type v with
      | None => None
      | Some x => option_map (cons x) (convert_all type rest)
      end
  end.

(** [Argument.parse]. *)
Definition parse (a : Argument) (src : multidict) : prog pyvalue :=
  match convert_all (arg_type a) (getlist (arg_name a) src) with
  | None => handle_validation_error a
  | Some [] =>
      if arg_required a then handle_validation_error a
      else Ret (arg_default a)
  | Some (x :: xs) =>
      match arg_action a with
      | append => Ret (PyList (x :: xs))
      | store => Ret x
      end
  end.

Fixpoint parse_each (args : list Argument) (src : multidict) : prog namespace :=
  match args with
  | [] => Ret []
  | a :: rest =>
      value <- parse a src ;;
      found <- parse_each rest src ;;
      Ret ((arg_name a, value) :: found)
  end.

(** Keys in order of first occurrence. *)
Fixpoint keys_once (seen : list string) (keys : list string) : list string :=
  match keys with
  | [] => []
  | k :: rest =>
      if existsb (String.eqb k) seen then keys_once seen rest
      else k :: keys_once (k :: seen) rest
  end.

(** The keys of the request that no declared argument took. *)
Definition unparsed_arguments (args : list Argument) (src : multidict)
  : list string :=
  keys_once (map arg_name args) (map fst src).

(** [RequestParser.parse_args(strict=...)]: every declared argument in
    declaration order, then, when strict, a 400 for unknown keys. *)
Definition parse_args (args : list Argument) (strict : bool) (src : multidict)
  : prog namespace :=
  found <- parse_each args src ;;
  match (if strict then unparsed_arguments args src else []) with
  | [] => Ret found
  | unknown =>
      abort 400 (JString ("Unknown arguments: " ++ String.concat ", " unknown))
  end.

(** [args[name]]. *)
Fixpoint getitem (args : namespace) (name : string) : prog pyvalue :=
  match args with
  | [] => Raise (KeyError name)
  | (k, v) :: rest => if String.eqb k name then Ret v else getitem rest name
  end.

Fixpoint characters (s : string) : list pyvalue :=
  match s with
  | EmptyString => []
  | String c s' => PyStr (String c "") :: characters s'
  end.

(** [*value] in a call: the items of an iterable as positional arguments. *)
Definition unpack (value : pyvalue) : prog (list pyvalue) :=
  match value with
  | PyList items => Ret items
  | PyStr s => Ret (characters s)
  | _ => Raise (TypeError "argument after * must be an iterable")
  end.

(** ** The resources *)

(** Carriage return + newline. *)
Definition crlf : string := String "013" (String "010" "").

Module _Sending.

Definition parser {Py : Python} : list Argument :=
  [ {| arg_name := "data"; arg_type := text_type; arg_required := true;
       arg_default := PyNone; arg_action := append;
       arg_help := "Data the serial port should send; is required" |};
    {| arg_name := "ending"; arg_type := text_type; arg_required := false;
       arg_default := PyStr crlf; arg_action := store;
       arg_help := "Ending that will be appended to the end of data before sending over serial port; default carriage return + newline" |};
    {| arg_name := "concatenate"; arg_type := text_type;
       arg_required := false; arg_default := PyStr " "; arg_action := store;
       arg_help := "What the strings in data should be concatenated by if list; by default a space" |} ].

Definition post {Py : Python} (request : multidict) : prog json :=
  args <- parse_args parser true request ;;
  data <- getitem args "data" ;;
  fragments <- unpack data ;;
  ending <- getitem args "ending" ;;
  concatenate <- getitem args "concatenate" ;;
  res <- send_call fragments ending concatenate ;;
  if negb res then abort 502 (JString "Failed to send")
  else Ret (JObject [("message", JString "OK")]).

End _Sending.

(** The body both methods of [_Receiving] return: [res[0]] and [res[1]] when
    [res] is a tuple, [None] otherwise. *)
Definition receive_body (res : option receive_record) : json :=
  JObject
    [ ("message", JString "OK");
      ("timestamp", match res with Some (t, _) => JNumber t | None => JNull end);
      ("data", match res with Some (_, d) => JString d | None => JNull end) ].

Module _Receiving.

Definition parser {Py : Python} : list Argument :=
  [ {| arg_name := "num_before"; arg_type := py_int; arg_required := false;
       arg_default := PyInt 0; arg_action := store;
       arg_help := "Which receive data to return" |};
    {| arg_name := "read_until"; arg_type := text_type;
       arg_required := false; arg_default := PyNone; arg_action := store;
       arg_help := "What character the string should read until" |};
    {| arg_name := "strip"; arg_type := py_bool; arg_required := false;
       arg_default := PyBool false; arg_action := store;
       arg_help := "If the string should be stripped of whitespaces and newlines before responding" |} ].

Definition get (request : multidict) : prog json :=
  res <- receive_str_call no_kwargs ;;
  Ret (receive_body res).

Definition post {Py : Python} (request : multidict) : prog json :=
  args <- parse_args parser true request ;;
  num_before <- getitem args "num_before" ;;
  read_until <- getitem args "read_until" ;;
  strip <- getitem args "strip" ;;
  res <- receive_str_call {| kw_num_before := Some num_before;
                             kw_read_until := Some read_until;
                             kw_strip := Some strip |} ;;
  Ret (receive_body res).

End _Receiving.

(** ** The registry *)

(** A Python object as the constructor's check sees it: its identity and the
    names of the classes it is an instance of. *)
Record pyobject : Type := { obj_id : nat; obj_classes : list string }.

Definition isinstance (o : pyobject) (cls : string) : bool :=
  existsb (String.eqb cls) (obj_classes o).

Inductive method : Type := GET | POST.

(** A resource class: its name, the connection its methods close over, and
    the method handlers it defines. *)
Record Resource : Type := {
  resource_name : string;
  resource_conn : pyobject;
  resource_get : option (multidict -> prog json);
  resource_post : option (multidict -> prog json)
}.

(** The web handler: the connection it was built on and the endpoints
    attached so far, oldest first. *)
Record RestApiHandler : Type := {
  conn : pyobject;
  all_endpoints : list (string * Resource)
}.

(** Modelled from the spec: [RestApiHandler.add_endpoint(endpoint)(func)]
    (class [RestApiHandler] is imported from the package and is not part of
    this file).  It "attaches" the pair of the path and the resource that the
    constructor [func] builds over the handler's connection "to the
    underlying web handler". *)
Definition add_endpoint (handler : RestApiHandler) (endpoint : string)
    (func : pyobject -> Resource) : RestApiHandler :=
  {| conn := conn handler;
     all_endpoints := all_endpoints handler ++ [(endpoint, func (conn handler))] |}.

(** The endpoints that the docstring of the class lists. *)
Definition documented_endpoints : list string :=
  [ "/send"; "/receive"; "/receive/all"; "/get"; "/send/get_first";
    "/get/wait"; "/send/get"; "/list_ports" ].

Module Builtins.

Definition send {Py : Python} (conn : pyobject) : Resource :=
  {| resource_name := "_Sending"; resource_conn := conn;
     resource_get := None; resource_post := Some _Sending.post |}.

Definition receive {Py : Python} (conn : pyobject) : Resource :=
  {| resource_name := "_Receiving"; resource_conn := conn;
     resource_get := Some _Receiving.get;
     resource_post := Some _Receiving.post |}.

Definition _add_all {Py : Python} (handler : RestApiHandler)
  : RestApiHandler :=
  let handler := add_endpoint handler "/send" send in
  let handler := add_endpoint handler "/receive" receive in
  handler.

(** The constructor acts on the handler object it is given: the result is
    the exception raised, if any, and the handler afterwards. *)
Definition __init__ {Py : Python} (handler : RestApiHandler)
  : option pyexception * RestApiHandler :=
  if negb (isinstance (conn handler) "Connection") then
    (Some (TypeError "The connection object passed into the handler must be a Connection type"),
     handler)
  else (None, _add_all handler).

End Builtins.

(** The endpoint attached at a path, if any (the first one attached). *)
Fixpoint endpoint_at (path : string) (endpoints : list (string * Resource))
  : option Resource :=
  match endpoints with
  | [] => None
  | (p, r) :: rest => if String.eqb p path then Some r else endpoint_at path rest
  end.

(** ** A scripted collaborator *)

(** A test double for the connection: it answers each call with the next
    entry of a script and keeps what it was asked.  It exercises the handlers
    on concrete requests. *)
Record scripted : Type := {
  send_results : list bool;
  receive_results : list (option receive_record);
  sent : list (list pyvalue * pyvalue * pyvalue);
  queried : list receive_query
}.

#[export] Instance scripted_connection : Connection scripted := {
  conn_send args e c st :=
    (hd false (send_results st),
     {| send_results := tl (send_results st);
        receive_results := receive_results st;
        sent := sent st ++ [(args, e, c)];
        queried := queried st |});
  conn_receive_str q st :=
    (hd None (receive_results st),
     {| send_results := send_results st;
        receive_results := tl (receive_results st);
        sent := sent st;
        queried := queried st ++ [q] |})
}.

Definition script (sends : list bool) (receives : list (option receive_record))
  : scripted :=
  {| send_results := sends; receive_results := receives;
     sent := []; queried := [] |}.

(** ** Serving a request *)

(** A request passes validation when the strict parse returns. *)
Definition validates (parser : list Argument) (request : multidict) : bool :=
  match parse_args parser true request with
  | Ret _ => true
  | _ => false
  end.

(** One request served against a connection: the response, the connection
    afterwards, and the calls that were made on it. *)
Definition serve {St : Type} `{Connection St}
    (handler : multidict -> prog json) (request : multidict) (st : St)
  : response * St * list call :=
  let '(o, st', log) := run (handler request) st in
  (http_response o, st', log).

Definition response_of {St : Type} (r : response * St * list call) : response :=
  fst (fst r).

Definition calls_of {St : Type} (r : response * St * list call) : list call :=
  snd r.

Definition receive_method {Py : Python} (m : method)
  : multidict -> prog json :=
  match m with
  | GET => _Receiving.get
  | POST => _Receiving.post
  end.

(** The value a [store] argument takes: the first one supplied. *)
Definition first_value (name : string) (request : multidict) : option pyvalue :=
  match getlist name request with
  | [] => None
  | v :: _ => Some v
  end.

(** The string of the spec's sentence on sending: the fragments joined by
    the separator, then suffixed by the ending. *)
Definition spec_send_string (fragments : list string)
    (concatenate ending : string) : string :=
  String.concat concatenate fragments ++ ending.


(** The first value a request supplies for a key, reading its items in
    order.  The statements on stored arguments are written with it. *)
Fixpoint first_supplied (name : string) (request : multidict)
  : option pyvalue :=
  match request with
  | [] => None
  | (key, value) :: rest =>
      if String.eqb key name then Some value else first_supplied name rest
  end.


(** What a text argument and a flag argument make of a supplied value: a
    JSON null stays [None], any other value is converted. *)
Definition passed_text {Py : Python} (v : pyvalue) : pyvalue :=
  match v with
  | PyNone => PyNone
  | _ => text_of v
  end.

Definition passed_flag (v : pyvalue) : pyvalue :=
  match v with
  | PyNone => PyNone
  | _ => PyBool (truthy v)
  end.

(** A small interpreter to run the handlers on concrete requests: it reads
    plain decimal numerals, and prints [None], booleans and integers.  The
    properties below are proved for every interpreter. *)
Definition example_python : Python :=
  {| int_of_str s := option_map Z.of_int (NilZero.int_of_string s);
     str_of v :=
       match v with
       | PyNone => "None"
       | PyBool true => "True"
       | PyBool false => "False"
       | PyInt n => NilZero.string_of_int (Z.to_int n)
       | _ => ""
       end |}.

(** * Properties *)

Lemma convert_text_type {Py : Python} (v : pyvalue) :
  convert text_type v = Some (passed_text v).
Proof. destruct v; reflexivity. Qed.

Lemma convert_py_bool (v : pyvalue) :
  convert py_bool v = Some (passed_flag v).
Proof. destruct v; reflexivity. Qed.

Lemma convert_all_text_type {Py : Python} (values : list pyvalue) :
  convert_all text_type values = Some (map passed_text values).
Proof.
  induction values as [|v rest IH]; cbn -[convert]; [reflexivity|].
  rewrite convert_text_type, IH. reflexivity.
Qed.

Lemma convert_all_py_bool (values : list pyvalue) :
  convert_all py_bool values = Some (map passed_flag values).
Proof.
  induction values as [|v rest IH]; cbn -[convert]; [reflexivity|].
  rewrite convert_py_bool, IH. reflexivity.
Qed.

(** Whatever [int] makes of a value is an integer. *)
Lemma py_int_is_int {Py : Python} (v x : pyvalue) :
  py_int v = Some x -> exists n, x = PyInt n.
Proof.
  destruct v; cbn; try discriminate.
  - intros E. inversion E. eexists; reflexivity.
  - intros E. inversion E. eexists; reflexivity.
  - destruct (float_to_int x0); cbn; intros E; inversion E.
    eexists; reflexivity.
  - destruct (int_of_str s); cbn; intros E; inversion E.
    eexists; reflexivity.
Qed.

(** A stored integer argument is an integer, or [None] for a JSON null. *)
Lemma convert_py_int_cases {Py : Python} (v x : pyvalue) :
  convert py_int v = Some x ->
  (v = PyNone /\ x = PyNone) \/ (v <> PyNone /\ exists n, x = PyInt n).
Proof.
  destruct v; cbn -[py_int]; intros E;
    try (right; split; [discriminate|exact (py_int_is_int _ _ E)]).
  left. inversion E. split; reflexivity.
Qed.

Lemma first_value_first_supplied (name : string) (request : multidict) :
  first_value name request = first_supplied name request.
Proof.
  unfold first_value, getlist.
  induction request as [|[key value] rest IH]; cbn; [reflexivity|].
  destruct (String.eqb key name); cbn; [reflexivity|exact IH].
Qed.

Lemma passed_text_of_text {Py : Python} (fragments : list string) :
  map passed_text (map PyStr fragments) = map PyStr fragments.
Proof.
  induction fragments as [|f rest IH]; cbn; [reflexivity|].
  rewrite IH. reflexivity.
Qed.

(** What the strict parse of a valid [/send] request leaves to do: one call
    of [send] with the fragments, the ending and the separator, and the
    mapping of its result. *)
Lemma sending_post_valid {Py : Python} (request : multidict) :
  validates _Sending.parser request = true ->
  getlist "data" request <> [] /\
  _Sending.post request
  = CallSend (map passed_text (getlist "data" request))
      (match first_value "ending" request with
       | Some e => passed_text e | None => PyStr crlf end)
      (match first_value "concatenate" request with
       | Some c => passed_text c | None => PyStr " " end)
      (fun res => if negb res then abort 502 (JString "Failed to send")
                  else Ret (message (JString "OK"))).
Proof.
  unfold validates, _Sending.post, parse_args, first_value.
  set (u := unparsed_arguments _Sending.parser request). clearbody u.
  unfold _Sending.parser, parse_each, parse. cbn -[convert_all].
  rewrite !convert_all_text_type.
  destruct (getlist "data" request) as [|d ds]; cbn; [discriminate|].
  destruct (getlist "ending" request) as [|e es];
    destruct (getlist "concatenate" request) as [|c cs]; cbn;
    destruct u; cbn; try discriminate; intros _; (split; [discriminate|reflexivity]).
Qed.

Lemma sending_post_without_data {Py : Python} (request : multidict) :
  getlist "data" request = [] ->
  _Sending.post request
  = Abort 400
      (message (JObject [("data",
         JString "Data the serial port should send; is required")])).
Proof.
  intros E. unfold _Sending.post, parse_args, _Sending.parser, parse_each, parse.
  cbn. rewrite E. reflexivity.
Qed.

(** What the strict parse of a valid POST [/receive] request leaves to do:
    one call of [receive_str] with the three parsed values as keywords. *)
Lemma receiving_post_valid {Py : Python} (request : multidict) :
  validates _Receiving.parser request = true ->
  exists nb : pyvalue,
    match first_value "num_before" request with
    | Some v => convert py_int v = Some nb
    | None => nb = PyInt 0
    end /\
    _Receiving.post request
    = CallReceiveStr
        {| kw_num_before := Some nb;
           kw_read_until :=
             Some (match first_value "read_until" request with
                   | Some t => passed_text t | None => PyNone end);
           kw_strip :=
             Some (match first_value "strip" request with
                   | Some v => passed_flag v | None => PyBool false end) |}
        (fun res => Ret (receive_body res)).
Proof.
  unfold validates, _Receiving.post, parse_args, first_value.
  set (u := unparsed_arguments _Receiving.parser request). clearbody u.
  unfold _Receiving.parser, parse_each, parse. cbn -[convert_all].
  rewrite convert_all_text_type, convert_all_py_bool.
  destruct (getlist "num_before" request) as [|v vs]; cbn -[convert].
  - destruct (getlist "read_until" request) as [|t ts];
      destruct (getlist "strip" request) as [|b bs]; cbn;
      destruct u; cbn; try discriminate; intros _;
      eexists; (split; reflexivity).
  - destruct (convert py_int v) as [x|] eqn:E; cbn -[convert]; [|discriminate].
    destruct (convert_all py_int vs) as [xs|]; cbn; [|discriminate].
    destruct (getlist "read_until" request) as [|t ts];
      destruct (getlist "strip" request) as [|b bs]; cbn;
      destruct u; cbn; try discriminate; intros _;
      exists x; (split; reflexivity).
Qed.

(** A POST [/receive] request that fails validation aborts with a 400 and a
    message before anything else happens. *)
Lemma receiving_post_invalid {Py : Python} (request : multidict) :
  validates _Receiving.parser request = false ->
  exists m, _Receiving.post request = Abort 400 (message m).
Proof.
  unfold validates, _Receiving.post, parse_args.
  set (u := unparsed_arguments _Receiving.parser request). clearbody u.
  unfold _Receiving.parser, parse_each, parse. cbn -[convert_all].
  rewrite convert_all_text_type, convert_all_py_bool.
  destruct (convert_all py_int (getlist "num_before" request)) as [[|x xs]|];
    cbn; try (intros _; eexists; reflexivity);
    destruct (getlist "read_until" request) as [|t ts];
    destruct (getlist "strip" request) as [|b bs]; cbn;
    destruct u; cbn; try discriminate; intros _; eexists; reflexivity.
Qed.

(** ** POST /send *)

(** C1.  A POST /send request that passes validation makes exactly one call
    of the connection's send primitive (no retry), and the result of that
    call decides the response: true gives HTTP 200 with body
    [{"message": "OK"}], false gives HTTP 502 with body
    [{"message": "Failed to send"}]. *)
Theorem send_result_decides_response :
  forall (Py : Python) (St : Type) (C : Connection St)
         (request : multidict) (st : St),
    validates _Sending.parser request = true ->
    exists args ending concatenate,
      serve _Sending.post request st
      = (if fst (conn_send args ending concatenate st)
         then {| status := 200; body := JObject [("message", JString "OK")] |}
         else {| status := 502;
                 body := JObject [("message", JString "Failed to send")] |},
         snd (conn_send args ending concatenate st),
         [SendCall args ending concatenate
            (fst (conn_send args ending concatenate st))]).
Proof.
  intros Py St C request st V.
  destruct (sending_post_valid request V) as [_ E].
  match type of E with _ = CallSend ?a ?e ?c _ => exists a, e, c end.
  unfold serve. rewrite E. cbn.
  destruct (conn_send _ _ _ st) as [[|] st']; reflexivity.
Qed.

Lemma send_result_decides_response_witness :
  let Py := example_python in
  let request := [("data", PyStr "AT"); ("ending", PyStr ";")] in
  validates _Sending.parser request = true /\
  exists args ending concatenate,
    serve _Sending.post request (script [false] [])
    = (if fst (conn_send args ending concatenate (script [false] []))
       then {| status := 200; body := JObject [("message", JString "OK")] |}
       else {| status := 502;
               body := JObject [("message", JString "Failed to send")] |},
       snd (conn_send args ending concatenate (script [false] [])),
       [SendCall args ending concatenate
          (fst (conn_send args ending concatenate (script [false] [])))]).
Proof.
  split; [reflexivity|].
  apply (send_result_decides_response example_python scripted
           scripted_connection
           [("data", PyStr "AT"); ("ending", PyStr ";")] (script [false] [])).
  reflexivity.
Defined.

(** C2, as the code has it.  A valid POST /send request makes one call of the
    send primitive whose positional arguments are the request's data
    fragments in order, with the ending and the separator (the request's, or
    carriage return + newline and a space) as keywords: this layer does not
    join or suffix anything.  A fragment that is text is passed unchanged;
    a JSON value that is not a string is passed as its [str], a JSON null as
    [None]. *)
Theorem send_forwards_fragments_unjoined :
  forall (Py : Python) (St : Type) (C : Connection St)
         (request : multidict) (st : St),
    validates _Sending.parser request = true ->
    getlist "data" request <> [] /\
    (exists res,
       calls_of (serve _Sending.post request st)
       = [SendCall (map passed_text (getlist "data" request))
            (match first_value "ending" request with
             | Some e => passed_text e | None => PyStr crlf end)
            (match first_value "concatenate" request with
             | Some c => passed_text c | None => PyStr " " end)
            res]) /\
    (forall fragments : list string,
       getlist "data" request = map PyStr fragments ->
       exists ending concatenate res,
         calls_of (serve _Sending.post request st)
         = [SendCall (map PyStr fragments) ending concatenate res]).
Proof.
  intros Py St C request st V.
  destruct (sending_post_valid request V) as [D E].
  split; [exact D|].
  unfold serve, calls_of. rewrite E. cbn.
  destruct (conn_send _ _ _ st) as [res st'] eqn:S.
  destruct res; cbn; split.
  - exists true. reflexivity.
  - intros fragments F. rewrite F, passed_text_of_text.
    eexists _, _, true. reflexivity.
  - exists false. reflexivity.
  - intros fragments F. rewrite F, passed_text_of_text.
    eexists _, _, false. reflexivity.
Qed.

Lemma send_forwards_fragments_unjoined_witness :
  let Py := example_python in
  let request := [("data", PyStr "a"); ("ending", PyStr ";");
                  ("data", PyStr "b")] in
  validates _Sending.parser request = true /\
  exists res,
    calls_of (serve _Sending.post request (script [true] []))
    = [SendCall [PyStr "a"; PyStr "b"] (PyStr ";") (PyStr " ") res].
Proof.
  split; [reflexivity|].
  exact (proj1 (proj2
    (send_forwards_fragments_unjoined example_python scripted
       scripted_connection
       [("data", PyStr "a"); ("ending", PyStr ";"); ("data", PyStr "b")]
       (script [true] []) eq_refl))).
Defined.

(** C2, as stated, fails.  For the two fragments "a" and "b" with the default
    separator and ending, what is passed to the send primitive is the two
    fragments, not the one string "a b" followed by carriage return +
    newline. *)
Lemma send_passes_fragments_not_joined_string :
  let Py := example_python in
  validates _Sending.parser [("data", PyStr "a"); ("data", PyStr "b")] = true /\
  calls_of (serve _Sending.post [("data", PyStr "a"); ("data", PyStr "b")]
              (script [true] []))
  = [SendCall [PyStr "a"; PyStr "b"] (PyStr crlf) (PyStr " ") true]
  /\ [PyStr "a"; PyStr "b"]
     <> [PyStr (spec_send_string ["a"; "b"] " " crlf)].
Proof.
  split; [reflexivity|]. split; [reflexivity|discriminate].
Qed.

(** C4.  A POST /send request without "data" is answered with the parser's
    HTTP 400 and no call is made on the connection, whose state is
    untouched. *)
Theorem send_without_data_rejected :
  forall (Py : Python) (St : Type) (C : Connection St)
         (request : multidict) (st : St),
    getlist "data" request = [] ->
    serve _Sending.post request st
    = ({| status := 400;
          body := JObject [("message", JObject [("data",
                   JString "Data the serial port should send; is required")])] |},
       st, []).
Proof.
  intros Py St C request st E.
  unfold serve. rewrite (sending_post_without_data request E). reflexivity.
Qed.

Lemma send_without_data_rejected_witness :
  let Py := example_python in
  let request := [("ending", PyStr ";"); ("concatenate", PyStr ",")] in
  getlist "data" request = [] /\
  serve _Sending.post request (script [true] [])
  = ({| status := 400;
        body := JObject [("message", JObject [("data",
                 JString "Data the serial port should send; is required")])] |},
     script [true] [], []).
Proof.
  split; [reflexivity|].
  apply (send_without_data_rejected example_python scripted scripted_connection
           [("ending", PyStr ";"); ("concatenate", PyStr ",")]
           (script [true] [])).
  reflexivity.
Defined.

(** ** GET and POST /receive *)

(** C3.  Whatever the request carries, GET /receive makes exactly one call of
    [receive_str], without arguments, so the connection is asked for offset
    0 (the most recent record), no terminator and stripping on; the response
    is HTTP 200 with "message" "OK" and the record's timestamp and data, or
    nulls.  The handler does not depend on the request's parameters. *)
Theorem receive_get_asks_most_recent_stripped :
  forall (St : Type) (C : Connection St) (request : multidict) (st : St),
    _Receiving.get request = _Receiving.get [] /\
    bind_receive_str no_kwargs
    = {| num_before := PyInt 0; read_until := PyNone; strip := PyBool true |} /\
    serve _Receiving.get request st
    = (let res := fst (conn_receive_str (bind_receive_str no_kwargs) st) in
       ({| status := 200;
           body := JObject
             [ ("message", JString "OK");
               ("timestamp",
                match res with Some (t, _) => JNumber t | None => JNull end);
               ("data",
                match res with Some (_, d) => JString d | None => JNull end) ] |},
        snd (conn_receive_str (bind_receive_str no_kwargs) st),
        [ReceiveStrCall no_kwargs res])).
Proof.
  intros St C request st.
  split; [reflexivity|]. split; [reflexivity|].
  unfold serve, _Receiving.get. cbn.
  destruct (conn_receive_str _ st) as [res st']; reflexivity.
Qed.

(** C5.  When the connection has no record to report (it answers [None] to
    a receive query), GET /receive and every POST /receive that passes
    validation ask it once and answer HTTP 200 with "timestamp" and "data"
    both null. *)
Theorem receive_without_record_is_200_nulls :
  forall (Py : Python) (St : Type) (C : Connection St) (m : method)
         (request : multidict) (st : St),
    (forall q, fst (conn_receive_str q st) = None) ->
    (m = POST -> validates _Receiving.parser request = true) ->
    exists kw,
      serve (receive_method m) request st
      = ({| status := 200;
            body := JObject [ ("message", JString "OK");
                              ("timestamp", JNull); ("data", JNull) ] |},
         snd (conn_receive_str (bind_receive_str kw) st),
         [ReceiveStrCall kw None]).
Proof.
  intros Py St C m request st Nothing Valid.
  destruct m; unfold receive_method.
  - exists no_kwargs. unfold serve, _Receiving.get. cbn.
    specialize (Nothing (bind_receive_str no_kwargs)).
    destruct (conn_receive_str _ st) as [res st']. cbn in *.
    subst res. reflexivity.
  - destruct (receiving_post_valid request (Valid eq_refl)) as [nb [_ E]].
    match type of E with _ = CallReceiveStr ?k _ => exists k end.
    unfold serve. rewrite E. cbn.
    match goal with
    | |- context [conn_receive_str ?q st] => specialize (Nothing q)
    end.
    destruct (conn_receive_str _ st) as [res st']. cbn in *.
    subst res. reflexivity.
Qed.

Lemma receive_without_record_is_200_nulls_witness :
  let Py := example_python in
  (forall q, fst (conn_receive_str q (script [true] [])) = None) /\
  (exists kw,
     serve (receive_method GET) [("num_before", PyStr "3")] (script [true] [])
     = ({| status := 200;
           body := JObject [ ("message", JString "OK");
                             ("timestamp", JNull); ("data", JNull) ] |},
        snd (conn_receive_str (bind_receive_str kw) (script [true] [])),
        [ReceiveStrCall kw None])) /\
  (exists kw,
     serve (receive_method POST) [("num_before", PyStr "3")] (script [true] [])
     = ({| status := 200;
           body := JObject [ ("message", JString "OK");
                             ("timestamp", JNull); ("data", JNull) ] |},
        snd (conn_receive_str (bind_receive_str kw) (script [true] [])),
        [ReceiveStrCall kw None])).
Proof.
  split; [intros q; reflexivity|]. split.
  - apply (receive_without_record_is_200_nulls example_python scripted
             scripted_connection GET [("num_before", PyStr "3")]
             (script [true] [])).
    + intros q; reflexivity.
    + discriminate.
  - apply (receive_without_record_is_200_nulls example_python scripted
             scripted_connection POST [("num_before", PyStr "3")]
             (script [true] [])).
    + intros q; reflexivity.
    + intros _. reflexivity.
Defined.




(** C10, as the code has it.  In the call a valid POST /receive request
    makes, [strip] is [bool] of the first value supplied for "strip": when
    that value is a string it is [True] exactly when the string is not empty
    ("false" and "0" included); [False] is passed when the parameter is
    absent or its first value is falsy (an empty string, JSON false, zero,
    an empty array or object); a JSON null is passed as [None].  Values
    after the first do not count. *)
Theorem receive_post_strip_is_truthiness :
  forall (Py : Python) (St : Type) (C : Connection St)
         (request : multidict) (st : St),
    validates _Receiving.parser request = true ->
    exists kw res,
      calls_of (serve _Receiving.post request st) = [ReceiveStrCall kw res] /\
      kw_strip kw
      = Some (match first_supplied "strip" request with
              | None => PyBool false
              | Some PyNone => PyNone
              | Some (PyBool b) => PyBool b
              | Some (PyInt n) => PyBool (negb (n =? 0))
              | Some (PyFloat x) => PyBool (negb (PrimFloat.eqb x 0))
              | Some (PyStr s) => PyBool (negb (String.eqb s ""))
              | Some (PyList items) =>
                  PyBool (match items with [] => false | _ :: _ => true end)
              | Some (PyDict items) =>
                  PyBool (match items with [] => false | _ :: _ => true end)
              end) /\
      (forall s, first_supplied "strip" request = Some (PyStr s) -> s <> "" ->
                 kw_strip kw = Some (PyBool true)) /\
      (first_supplied "strip" request = Some (PyStr "false") ->
       kw_strip kw = Some (PyBool true)) /\
      (first_supplied "strip" request = Some (PyStr "0") ->
       kw_strip kw = Some (PyBool true)) /\
      (kw_strip kw = Some (PyBool false) <->
       first_supplied "strip" request = None \/
       exists v, first_supplied "strip" request = Some v /\
                 v <> PyNone /\ truthy v = false) /\
      (kw_strip kw = Some PyNone <->
       first_supplied "strip" request = Some PyNone).
Proof.
  intros Py St C request st V.
  destruct (receiving_post_valid request V) as [nb [_ E]].
  rewrite !first_value_first_supplied in E.
  match type of E with _ = CallReceiveStr ?k _ => exists k end.
  exists (fst (conn_receive_str
                 {| num_before := nb;
                    read_until :=
                      match first_supplied "read_until" request with
                      | Some t => passed_text t | None => PyNone end;
                    strip :=
                      match first_supplied "strip" request with
                      | Some v => passed_flag v | None => PyBool false end |}
                 st)).
  split.
  { unfold serve, calls_of. rewrite E. cbn.
    destruct (conn_receive_str _ st) as [res st']; reflexivity. }
  cbn [kw_strip].
  destruct (first_supplied "strip" request) as [v|].
  - repeat split.
    + destruct v; reflexivity.
    + intros s S Ne. inversion S. cbn.
      apply String.eqb_neq in Ne. rewrite Ne. reflexivity.
    + intros S. inversion S. reflexivity.
    + intros S. inversion S. reflexivity.
    + intros F. right. exists v. split; [reflexivity|].
      destruct v; cbn in F; inversion F as [F']; split;
        try discriminate; try reflexivity; exact F'.
    + intros [F|[w [W [Wn Wf]]]]; [discriminate|].
      inversion W; subst w.
      destruct v; cbn in *; try congruence; rewrite Wf; reflexivity.
    + intros F. destruct v; cbn in F; try discriminate. reflexivity.
    + intros F. inversion F. reflexivity.
  - repeat split; try discriminate; try (intros; discriminate).
    intros _. left. reflexivity.
Qed.

Lemma receive_post_strip_is_truthiness_witness :
  let Py := example_python in
  let request := [("strip", PyStr "false"); ("strip", PyStr "")] in
  let st := script [] [Some (1636000000.5%float, " ready ")] in
  validates _Receiving.parser request = true /\
  exists kw res,
    calls_of (serve _Receiving.post request st) = [ReceiveStrCall kw res] /\
    kw_strip kw = Some (PyBool true).
Proof.
  split; [reflexivity|].
  destruct (receive_post_strip_is_truthiness example_python scripted
              scripted_connection
              [("strip", PyStr "false"); ("strip", PyStr "")]
              (script [] [Some (1636000000.5%float, " ready ")]) eq_refl)
    as [kw [res [E [S _]]]].
  exists kw, res. split; [exact E|exact S].
Defined.

(** C10, as stated, fails.  A request that gives "strip" twice, first empty
    and then "yes", supplies a non-empty string for the parameter, and
    [False] is passed; and a JSON body that gives false for "strip" supplies
    a value that is neither absent nor empty, and [False] is passed. *)
Lemma receive_post_strip_false_for_supplied_values :
  let Py := example_python in
  (In (PyStr "yes") (getlist "strip" [("strip", PyStr ""); ("strip", PyStr "yes")]) /\
   validates _Receiving.parser [("strip", PyStr ""); ("strip", PyStr "yes")]
   = true /\
   calls_of (serve _Receiving.post
               [("strip", PyStr ""); ("strip", PyStr "yes")] (script [] [None]))
   = [ReceiveStrCall
        {| kw_num_before := Some (PyInt 0); kw_read_until := Some PyNone;
           kw_strip := Some (PyBool false) |} None]) /\
  (getlist "strip" [("strip", PyBool false)] = [PyBool false] /\
   validates _Receiving.parser [("strip", PyBool false)] = true /\
   calls_of (serve _Receiving.post [("strip", PyBool false)] (script [] [None]))
   = [ReceiveStrCall
        {| kw_num_before := Some (PyInt 0); kw_read_until := Some PyNone;
           kw_strip := Some (PyBool false) |} None]).
Proof.
  split.
  - split; [right; left; reflexivity|]. split; reflexivity.
  - split; [reflexivity|]. split; reflexivity.
Qed.

(** ** The registry *)

(** C7.  The constructor checks the handler's connection itself: when it is
    not an instance of [Connection] the construction raises [TypeError], and
    when it is, the construction raises nothing. *)
Theorem init_checks_connection_type :
  forall (Py : Python) (handler : RestApiHandler),
    (isinstance (conn handler) "Connection" = false ->
     fst (Builtins.__init__ handler)
     = Some (TypeError "The connection object passed into the handler must be a Connection type")) /\
    (isinstance (conn handler) "Connection" = true ->
     fst (Builtins.__init__ handler) = None).
Proof.
  intros Py handler. unfold Builtins.__init__.
  split; intros E; rewrite E; reflexivity.
Qed.

Lemma init_checks_connection_type_witness :
  let Py := example_python in
  fst (Builtins.__init__
         {| conn := {| obj_id := 1; obj_classes := ["Serial"; "object"] |};
            all_endpoints := [] |})
  = Some (TypeError "The connection object passed into the handler must be a Connection type") /\
  fst (Builtins.__init__
         {| conn := {| obj_id := 2; obj_classes := ["Connection"; "object"] |};
            all_endpoints := [] |})
  = None.
Proof.
  split.
  - apply (proj1 (init_checks_connection_type example_python
             {| conn := {| obj_id := 1; obj_classes := ["Serial"; "object"] |};
                all_endpoints := [] |})).
    reflexivity.
  - apply (proj2 (init_checks_connection_type example_python
             {| conn := {| obj_id := 2;
                           obj_classes := ["Connection"; "object"] |};
                all_endpoints := [] |})).
    reflexivity.
Defined.

(** C8.  Registration attaches two endpoints, [/send] and [/receive], in
    this order and after the ones the handler already has; on a handler
    without endpoints, of the eight documented paths only these two have a
    resource attached afterwards. *)
Theorem add_all_attaches_send_and_receive :
  forall (Py : Python) (handler : RestApiHandler),
    all_endpoints (Builtins._add_all handler)
    = (all_endpoints handler
       ++ [ ("/send", Builtins.send (conn handler));
            ("/receive", Builtins.receive (conn handler)) ])%list /\
    conn (Builtins._add_all handler) = conn handler /\
    map (fun path =>
           (path,
            match endpoint_at path
                    (all_endpoints
                       (Builtins._add_all
                          {| conn := conn handler; all_endpoints := [] |}))
            with Some _ => true | None => false end))
        documented_endpoints
    = [ ("/send", true); ("/receive", true); ("/receive/all", false);
        ("/get", false); ("/send/get_first", false); ("/get/wait", false);
        ("/send/get", false); ("/list_ports", false) ].
Proof.
  intros Py handler. unfold Builtins._add_all, add_endpoint. cbn.
  rewrite <- app_assoc. repeat split.
Qed.

(** C9.  When the constructor rejects the connection, it raises before any
    endpoint is added: the handler is exactly as it was. *)
Theorem init_failure_leaves_handler :
  forall (Py : Python) (handler : RestApiHandler),
    isinstance (conn handler) "Connection" = false ->
    Builtins.__init__ handler
    = (Some (TypeError "The connection object passed into the handler must be a Connection type"),
       handler) /\
    all_endpoints (snd (Builtins.__init__ handler)) = all_endpoints handler.
Proof.
  intros Py handler E. unfold Builtins.__init__. rewrite E. cbn.
  split; reflexivity.
Qed.

Lemma init_failure_leaves_handler_witness :
  let Py := example_python in
  let handler :=
    {| conn := {| obj_id := 7; obj_classes := ["NoneType"; "object"] |};
       all_endpoints := [("/hello", Builtins.receive
                            {| obj_id := 7; obj_classes := ["NoneType"; "object"] |})] |} in
  isinstance (conn handler) "Connection" = false /\
  Builtins.__init__ handler
  = (Some (TypeError "The connection object passed into the handler must be a Connection type"),
     handler) /\
  all_endpoints (snd (Builtins.__init__ handler)) = all_endpoints handler.
Proof.
  split; [reflexivity|].
  apply (init_failure_leaves_handler example_python
           {| conn := {| obj_id := 7; obj_classes := ["NoneType"; "object"] |};
              all_endpoints := [("/hello", Builtins.receive (Py := example_python)
                                   {| obj_id := 7;
                                      obj_classes := ["NoneType"; "object"] |})] |}).
  reflexivity.
Defined.

(** * Further properties of the resources *)

(** ** Which requests the strict parsers accept *)

Lemma keys_once_nil (seen keys : list string) :
  keys_once seen keys = [] <->
  forall k, In k keys -> existsb (String.eqb k) seen = true.
Proof.
  revert seen. induction keys as [|k rest IH]; intros seen; cbn.
  - split; [intros _ k []|reflexivity].
  - destruct (existsb (String.eqb k) seen) eqn:K.
    + rewrite IH. split.
      * intros H k' [<-|I]; [exact K|exact (H k' I)].
      * intros H k' I. apply H. right. exact I.
    + split; [discriminate|].
      intros H. specialize (H k (or_introl eq_refl)). congruence.
Qed.

Lemma existsb_eqb_In (k : string) (names : list string) :
  existsb (String.eqb k) names = true <-> In k names.
Proof.
  rewrite existsb_exists. split.
  - intros [x [I E]]. apply String.eqb_eq in E. subst. exact I.
  - intros I. exists k. split; [exact I|apply String.eqb_refl].
Qed.

Lemma convert_all_None (type : pyvalue -> option pyvalue)
    (values : list pyvalue) :
  convert_all type values = None <->
  exists v, In v values /\ convert type v = None.
Proof.
  induction values as [|v rest IH]; cbn -[convert].
  - split; [discriminate|intros [v [[] _]]].
  - destruct (convert type v) as [x|] eqn:T.
    + destruct (convert_all type rest) as [xs|]; cbn.
      * split; [discriminate|].
        intros [w [[<-|I] W]]; [congruence|].
        assert (@Some (list pyvalue) xs = None) as Absurd
          by (apply IH; exists w; split; assumption).
        discriminate.
      * split; [|reflexivity]. intros _.
        destruct (proj1 IH eq_refl) as [w [I W]].
        exists w. split; [right; exact I|exact W].
    + split; [|reflexivity]. intros _.
      exists v. split; [left; reflexivity|exact T].
Qed.

Lemma validates_sending {Py : Python} (request : multidict) :
  validates _Sending.parser request
  = match getlist "data" request with
    | [] => false
    | _ :: _ =>
        match unparsed_arguments _Sending.parser request with
        | [] => true
        | _ :: _ => false
        end
    end.
Proof.
  unfold validates, parse_args.
  set (u := unparsed_arguments _Sending.parser request). clearbody u.
  unfold _Sending.parser, parse_each, parse. cbn -[convert_all].
  rewrite !convert_all_text_type.
  destruct (getlist "data" request) as [|d ds]; cbn; [reflexivity|].
  destruct (getlist "ending" request) as [|e es];
    destruct (getlist "concatenate" request) as [|c cs]; cbn;
    destruct u; reflexivity.
Qed.

Lemma validates_receiving {Py : Python} (request : multidict) :
  validates _Receiving.parser request
  = match convert_all py_int (getlist "num_before" request) with
    | None => false
    | Some _ =>
        match unparsed_arguments _Receiving.parser request with
        | [] => true
        | _ :: _ => false
        end
    end.
Proof.
  unfold validates, parse_args.
  set (u := unparsed_arguments _Receiving.parser request). clearbody u.
  unfold _Receiving.parser, parse_each, parse. cbn -[convert_all].
  rewrite convert_all_text_type, convert_all_py_bool.
  destruct (convert_all py_int (getlist "num_before" request)) as [[|x xs]|];
    cbn; try reflexivity;
    destruct (getlist "read_until" request) as [|t ts];
    destruct (getlist "strip" request) as [|b bs]; cbn;
    destruct u; reflexivity.
Qed.

Lemma sending_post_invalid {Py : Python} (request : multidict) :
  validates _Sending.parser request = false ->
  exists m, _Sending.post request = Abort 400 (message m).
Proof.
  unfold validates, _Sending.post, parse_args.
  set (u := unparsed_arguments _Sending.parser request). clearbody u.
  unfold _Sending.parser, parse_each, parse. cbn -[convert_all].
  rewrite !convert_all_text_type.
  destruct (getlist "data" request) as [|d ds]; cbn;
    [intros _; eexists; reflexivity|].
  destruct (getlist "ending" request) as [|e es];
    destruct (getlist "concatenate" request) as [|c cs]; cbn;
    destruct u; cbn; try discriminate; intros _; eexists; reflexivity.
Qed.

(** X1.  POST /send accepts a request exactly when it carries at least one
    "data" value and no key other than "data", "ending" and "concatenate";
    an empty or null "data" value counts as a value. *)
Theorem send_accepts_exactly :
  forall (Py : Python) (request : multidict),
    validates _Sending.parser request = true <->
    getlist "data" request <> [] /\
    forall k, In k (map fst request) ->
              k = "data" \/ k = "ending" \/ k = "concatenate".
Proof.
  intros Py request. rewrite validates_sending.
  assert (unparsed_arguments _Sending.parser request = [] <->
          forall k, In k (map fst request) ->
                    k = "data" \/ k = "ending" \/ k = "concatenate") as U.
  { unfold unparsed_arguments. rewrite keys_once_nil.
    split; intros H k I; specialize (H k I).
    - apply existsb_eqb_In in H. cbn in H. intuition.
    - apply existsb_eqb_In. cbn. intuition. }
  destruct (getlist "data" request) as [|d ds].
  - split; [discriminate|]. intros [D _]. contradiction.
  - destruct (unparsed_arguments _Sending.parser request) as [|k ks].
    + split; [|reflexivity]. intros _. split; [discriminate|].
      apply U. reflexivity.
    + split; [discriminate|]. intros [_ K].
      apply U in K. discriminate.
Qed.

(** X2.  A POST /send request that fails validation, whatever the reason, is
    answered with HTTP 400 and a "message"; no call is made on the connection
    and its state is left as it was. *)
Theorem send_invalid_is_400_without_call :
  forall (Py : Python) (St : Type) (C : Connection St)
         (request : multidict) (st : St),
    validates _Sending.parser request = false ->
    exists m,
      serve _Sending.post request st
      = ({| status := 400; body := JObject [("message", m)] |}, st, []).
Proof.
  intros Py St C request st V.
  destruct (sending_post_invalid request V) as [m E].
  exists m. unfold serve. rewrite E. reflexivity.
Qed.

Lemma send_invalid_is_400_without_call_witness :
  let Py := example_python in
  let request := [("data", PyStr "AT"); ("baud", PyStr "9600")] in
  validates _Sending.parser request = false /\
  exists m,
    serve _Sending.post request (script [true] [])
    = ({| status := 400; body := JObject [("message", m)] |},
       script [true] [], []).
Proof.
  split; [reflexivity|].
  apply (send_invalid_is_400_without_call example_python scripted
           scripted_connection
           [("data", PyStr "AT"); ("baud", PyStr "9600")] (script [true] [])).
  reflexivity.
Defined.

(** X3.  POST /receive accepts a request exactly when every "num_before"
    value it carries is a JSON null or one that [int] converts, and it has
    no key other than "num_before", "read_until" and "strip". *)
Theorem receive_post_accepts_exactly :
  forall (Py : Python) (request : multidict),
    validates _Receiving.parser request = true <->
    (forall v, In v (getlist "num_before" request) ->
               v = PyNone \/ exists n, py_int v = Some (PyInt n)) /\
    forall k, In k (map fst request) ->
              k = "num_before" \/ k = "read_until" \/ k = "strip".
Proof.
  intros Py request. rewrite validates_receiving.
  assert (unparsed_arguments _Receiving.parser request = [] <->
          forall k, In k (map fst request) ->
                    k = "num_before" \/ k = "read_until" \/ k = "strip") as U.
  { unfold unparsed_arguments. rewrite keys_once_nil.
    split; intros H k I; specialize (H k I).
    - apply existsb_eqb_In in H. cbn in H. intuition.
    - apply existsb_eqb_In. cbn. intuition. }
  destruct (convert_all py_int (getlist "num_before" request)) as [xs|] eqn:N.
  - assert (forall v, In v (getlist "num_before" request) ->
                      v = PyNone \/ exists n, py_int v = Some (PyInt n)) as Ints.
    { intros v I. destruct (convert py_int v) as [x|] eqn:P.
      - destruct (convert_py_int_cases v x P) as [[-> _]|[Nn [n ->]]];
          [left; reflexivity|right].
        exists n. destruct v; try exact P. contradiction.
      - assert (convert_all py_int (getlist "num_before" request) = None)
          by (apply convert_all_None; exists v; split; assumption).
        congruence. }
    destruct (unparsed_arguments _Receiving.parser request) as [|k ks].
    + split; [|reflexivity]. intros _. split; [exact Ints|].
      apply U. reflexivity.
    + split; [discriminate|]. intros [_ K]. apply U in K. discriminate.
  - split; [discriminate|]. intros [Ints _].
    apply convert_all_None in N. destruct N as [v [I P]].
    destruct (Ints v I) as [->|[n P']]; [discriminate|].
    destruct v; cbn -[py_int] in P; congruence.
Qed.

(** X4.  A POST /receive request that fails validation is answered with HTTP
    400 and a "message"; the connection is not queried and its state is left
    as it was. *)
Theorem receive_post_invalid_is_400_without_call :
  forall (Py : Python) (St : Type) (C : Connection St)
         (request : multidict) (st : St),
    validates _Receiving.parser request = false ->
    exists m,
      serve _Receiving.post request st
      = ({| status := 400; body := JObject [("message", m)] |}, st, []).
Proof.
  intros Py St C request st V.
  destruct (receiving_post_invalid request V) as [m E].
  exists m. unfold serve. rewrite E. reflexivity.
Qed.

Lemma receive_post_invalid_is_400_without_call_witness :
  let Py := example_python in
  let request := [("num_before", PyStr "0"); ("timeout", PyStr "2")] in
  let st := script [] [Some (1636000000.5%float, "ready")] in
  validates _Receiving.parser request = false /\
  exists m,
    serve _Receiving.post request st
    = ({| status := 400; body := JObject [("message", m)] |}, st, []).
Proof.
  split; [reflexivity|].
  apply (receive_post_invalid_is_400_without_call example_python scripted
           scripted_connection
           [("num_before", PyStr "0"); ("timeout", PyStr "2")]
           (script [] [Some (1636000000.5%float, "ready")])).
  reflexivity.
Defined.

(** X5.  When some "num_before" value of a POST /receive request is not a
    JSON null and [int] raises on it (the first value or a later one), the
    answer is HTTP 400 whose message maps "num_before" to the help text of
    the argument, whatever else the request carries; the connection is not
    queried. *)
Theorem receive_post_rejects_bad_num_before :
  forall (Py : Python) (St : Type) (C : Connection St)
         (request : multidict) (st : St) (v : pyvalue),
    In v (getlist "num_before" request) ->
    v <> PyNone ->
    py_int v = None ->
    serve _Receiving.post request st
    = ({| status := 400;
          body := JObject [("message", JObject [("num_before",
                   JString "Which receive data to return")])] |},
       st, []).
Proof.
  intros Py St C request st v I Nn P.
  assert (convert_all py_int (getlist "num_before" request) = None) as N.
  { apply convert_all_None. exists v. split; [exact I|].
    destruct v; try exact P. contradiction. }
  unfold serve, _Receiving.post, parse_args, _Receiving.parser, parse_each, parse.
  cbn -[convert_all]. rewrite N. reflexivity.
Qed.

Lemma receive_post_rejects_bad_num_before_witness :
  let Py := example_python in
  let request := [("num_before", PyStr "1"); ("num_before", PyStr "one");
                  ("port", PyStr "x")] in
  In (PyStr "one") (getlist "num_before" request) /\
  PyStr "one" <> PyNone /\
  py_int (PyStr "one") = None /\
  serve _Receiving.post request (script [] [None])
  = ({| status := 400;
        body := JObject [("message", JObject [("num_before",
                 JString "Which receive data to return")])] |},
     script [] [None], []).
Proof.
  split; [right; left; reflexivity|]. split; [discriminate|].
  split; [reflexivity|].
  apply (receive_post_rejects_bad_num_before example_python scripted
           scripted_connection
           [("num_before", PyStr "1"); ("num_before", PyStr "one");
            ("port", PyStr "x")]
           (script [] [None]) (PyStr "one")).
  - right; left; reflexivity.
  - discriminate.
  - reflexivity.
Defined.

(** X6.  On GET and on POST /receive, when the connection answers the
    handler's query with a record, the response is HTTP 200 and carries the
    record's timestamp and string exactly as the connection gave them. *)
Theorem receive_record_is_returned_verbatim :
  forall (Py : Python) (St : Type) (C : Connection St) (m : method)
         (request : multidict) (st : St) (kw : receive_kwargs)
         (t : float) (d : string),
    In (ReceiveStrCall kw (Some (t, d)))
       (calls_of (serve (receive_method m) request st)) ->
    response_of (serve (receive_method m) request st)
    = {| status := 200;
         body := JObject [ ("message", JString "OK");
                           ("timestamp", JNumber t); ("data", JString d) ] |}.
Proof.
  intros Py St C m request st kw t d.
  destruct m; unfold receive_method.
  - unfold serve, calls_of, response_of, _Receiving.get. cbn.
    destruct (conn_receive_str _ st) as [res st']. cbn.
    intros [H|[]]. inversion H; subst. reflexivity.
  - destruct (validates _Receiving.parser request) eqn:V.
    + destruct (receiving_post_valid request V) as [n [_ E]].
      unfold serve, calls_of, response_of. rewrite E. cbn.
      destruct (conn_receive_str _ st) as [res st']. cbn.
      intros [H|[]]. inversion H; subst. reflexivity.
    + destruct (receiving_post_invalid request V) as [data E].
      unfold serve, calls_of. rewrite E. cbn. intros [].
Qed.

Lemma receive_record_is_returned_verbatim_witness :
  let Py := example_python in
  let st := script [] [Some (1636000000.5%float, "  ready  ")] in
  In (ReceiveStrCall no_kwargs (Some (1636000000.5%float, "  ready  ")))
     (calls_of (serve (receive_method GET) [] st)) /\
  response_of (serve (receive_method GET) [] st)
  = {| status := 200;
       body := JObject [ ("message", JString "OK");
                         ("timestamp", JNumber 1636000000.5%float);
                         ("data", JString "  ready  ") ] |}.
Proof.
  split; [left; reflexivity|].
  apply (receive_record_is_returned_verbatim example_python scripted
           scripted_connection
           GET [] (script [] [Some (1636000000.5%float, "  ready  ")])
           no_kwargs 1636000000.5%float "  ready  ").
  left; reflexivity.
Defined.
